(** * django-hitcount: the models of [hitcount/models.py]

    A shallow embedding of the [HitCount] and [Hit] models, of the
    [HitManager] and of the [pre_delete] receiver, over an explicit model of
    the relational store and of the system clock, followed by the properties
    of the hit counter, of the timestamps and of the time-window queries. *)

From stdpp Require Import gmap strings list fin_maps pretty.
From Stdlib Require Import ZArith Lia.

Open Scope Z_scope.

(** ** Time

    A [datetime] is the number of microseconds since an epoch and a
    [timedelta] is a number of microseconds, both integers: subtraction and
    comparison of timestamps are those of [Z].  The calendar range of
    [datetime] is not represented. *)

Definition datetime := Z.

(** A keyword argument of a call: an integer, or a value of another kind
    (floating point durations are not represented). *)
Inductive pyval :=
| PInt (n : Z)
| PStr (s : string)
| PNone.

(** ** Exceptions *)
Inductive exn :=
| AssertionError (msg : string)
| TypeError
| FieldError
| DoesNotExist
| IntegrityError.

Inductive result (A : Type) :=
| Ok (a : A)
| Raise (e : exn).
Arguments Ok {A} a.
Arguments Raise {A} e.

(** ** [datetime.timedelta]

    The constructor binds the seven keywords it knows, each defaulting to 0;
    any other keyword, or a value that is not a number, is a [TypeError]. *)

Definition timedelta_keywords : list string :=
  ["days"; "seconds"; "microseconds"; "milliseconds"; "minutes"; "hours";
   "weeks"]%string.

Definition timedelta_arg (kwargs : gmap string pyval) (name : string)
  : result Z :=
  match kwargs !! name with
  | None => Ok 0
  | Some (PInt n) => Ok n
  | Some _ => Raise TypeError
  end.

Definition result_bind {A B} (r : result A) (k : A -> result B) : result B :=
  match r with
  | Ok a => k a
  | Raise e => Raise e
  end.

Definition us_per_second : Z := 1000000.

Definition timedelta (kwargs : gmap string pyval) : result Z :=
  if decide (dom kwargs ⊆ list_to_set timedelta_keywords) then
    result_bind (timedelta_arg kwargs "days") (fun days =>
    result_bind (timedelta_arg kwargs "seconds") (fun seconds =>
    result_bind (timedelta_arg kwargs "microseconds") (fun microseconds =>
    result_bind (timedelta_arg kwargs "milliseconds") (fun milliseconds =>
    result_bind (timedelta_arg kwargs "minutes") (fun minutes =>
    result_bind (timedelta_arg kwargs "hours") (fun hours =>
    result_bind (timedelta_arg kwargs "weeks") (fun weeks =>
      Ok (((weeks * 7 + days) * 86400
           + hours * 3600 + minutes * 60 + seconds) * us_per_second
          + milliseconds * 1000 + microseconds))))))))
  else Raise TypeError.

(** ** Query expressions

    [F('hits') + 1] is not a number: it is an expression node that the store
    evaluates against the row it updates. *)
Inductive expr :=
| F (name : string)
| Add (e : expr) (n : Z)
| Sub (e : expr) (n : Z).

(** The value held by the [hits] attribute of an instance in memory. *)
Inductive field_value :=
| Plain (n : Z)
| Expression (e : expr).

(** ** The store: one table per model *)

Record HitCountRow := mkHitCountRow {
  row_hits : Z;
  row_modified : datetime;
  row_content_type : Z;
  row_object_id : Z
}.

Record HitRow := mkHitRow {
  row_created : datetime;
  row_ip : string;
  row_session : string;
  row_user_agent : string;
  row_user : option Z;
  row_hitcount_id : Z
}.

(** The world a call runs in: the two tables, the project settings, and the
    system clock as the sequence of its successive readings together with the
    number of readings already taken.  Constraints that only the database
    backend enforces (uniqueness of [(content_type, object_id)], the column
    range of [hits], foreign keys, string lengths) are not represented. *)
Record World := mkWorld {
  hitcount_table : gmap Z HitCountRow;
  hit_table : gmap Z HitRow;
  HITCOUNT_KEEP_HIT_ACTIVE : option (gmap string pyval);
  clock : nat -> datetime;
  ticks : nat
}.

Definition set_hitcount_table (t : gmap Z HitCountRow) (w : World) : World :=
  mkWorld t (hit_table w) (HITCOUNT_KEEP_HIT_ACTIVE w) (clock w) (ticks w).

Definition set_hit_table (t : gmap Z HitRow) (w : World) : World :=
  mkWorld (hitcount_table w) t (HITCOUNT_KEEP_HIT_ACTIVE w) (clock w) (ticks w).

(** ** Computations: state and exceptions

    A raised exception keeps the writes made before it (autocommit). *)
Definition M (A : Type) : Type := World -> World * result A.

Definition ret {A} (a : A) : M A := fun w => (w, Ok a).

Definition raise {A} (e : exn) : M A := fun w => (w, Raise e).

Definition bind {A B} (m : M A) (k : A -> M B) : M B :=
  fun w =>
    match m w with
    | (w', Ok a) => k a w'
    | (w', Raise e) => (w', Raise e)
    end.

Notation "'let*' x ':=' m 'in' k" := (bind m (fun x => k))
  (at level 10, x name, m at level 100, k at level 200).
Notation "'do*' m 'in' k" := (bind m (fun _ => k))
  (at level 10, m at level 100, k at level 200).

Definition lift {A} (r : result A) : M A := fun w => (w, r).

(** [datetime.datetime.utcnow()] *)
Definition utcnow : M datetime :=
  fun w =>
    (mkWorld (hitcount_table w) (hit_table w) (HITCOUNT_KEEP_HIT_ACTIVE w)
       (clock w) (S (ticks w)),
     Ok (clock w (ticks w))).

(** [assert cond, msg] *)
Definition assert_ (cond : bool) (msg : string) : M unit :=
  if cond then ret tt else raise (AssertionError msg).

(** The primary key an [INSERT] without explicit key receives: one more than
    the largest key present, and at least 1. *)
Definition fresh_pk {A} (t : gmap Z A) : Z :=
  map_fold (fun k _ acc => Z.max (k + 1) acc) 1 t.

(** ** Query sets over the [Hit] table

    A query set is lazy: it is the conjunction of its lookups, and it reads
    the table only when it is evaluated. *)
Inductive lookup :=
| pk__exact (k : Z)
| created__gte (t : datetime)
| ip__exact (s : string)
| session__exact (s : string)
| user_agent__exact (s : string)
| user__exact (u : option Z)
| hitcount__exact (k : option Z).

Definition matches (l : lookup) (k : Z) (r : HitRow) : bool :=
  match l with
  | pk__exact k' => bool_decide (k = k')
  | created__gte t => bool_decide (t <= row_created r)
  | ip__exact s => bool_decide (row_ip r = s)
  | session__exact s => bool_decide (row_session r = s)
  | user_agent__exact s => bool_decide (row_user_agent r = s)
  | user__exact u => bool_decide (row_user r = u)
  | hitcount__exact None => false
  | hitcount__exact (Some h) => bool_decide (row_hitcount_id r = h)
  end.

Definition QuerySet := list lookup.

Definition qs_filter (q : QuerySet) (ls : list lookup) : QuerySet := q ++ ls.

Definition qs_matches (q : QuerySet) (k : Z) (r : HitRow) : bool :=
  forallb (fun l => matches l k r) q.

Definition qs_rows (q : QuerySet) (w : World) : gmap Z HitRow :=
  filter (fun kr => qs_matches q kr.1 kr.2 = true) (hit_table w).

Definition qs_count (q : QuerySet) : M Z :=
  fun w => (w, Ok (Z.of_nat (size (qs_rows q w)))).

(** ** [class HitCount] *)
Module HitCount.

Record t := mk {
  pk : option Z;
  hits : field_value;
  modified : datetime;
  content_type : Z;
  object_id : Z
}.

(** The integer columns of the row that an expression may name. *)
Definition column (r : HitCountRow) (name : string) : option Z :=
  if decide (name = "hits"%string) then Some (row_hits r)
  else if decide (name = "object_id"%string) then Some (row_object_id r)
  else if decide (name = "content_type"%string)
  then Some (row_content_type r)
  else None.

Fixpoint eval (r : HitCountRow) (e : expr) : option Z :=
  match e with
  | F name => column r name
  | Add e n => (fun v => v + n) <$> eval r e
  | Sub e n => (fun v => v - n) <$> eval r e
  end.

Definition to_row (self : t) (n : Z) : HitCountRow :=
  mkHitCountRow n (modified self) (content_type self) (object_id self).

(** [models.Model.save]: an [UPDATE] of the row with the instance's key
    when there is one, an [INSERT] otherwise.  An expression is evaluated
    by the [UPDATE] against the stored row; an [INSERT] has no row to
    evaluate it against and refuses it. *)
Definition super_save (self : t) : M t :=
  fun w =>
    match pk self with
    | Some k =>
        match hitcount_table w !! k, hits self with
        | Some old, Plain n =>
            (set_hitcount_table (<[k := to_row self n]> (hitcount_table w)) w,
             Ok self)
        | Some old, Expression e =>
            match eval old e with
            | Some n =>
                (set_hitcount_table
                   (<[k := to_row self n]> (hitcount_table w)) w,
                 Ok self)
            | None => (w, Raise FieldError)
            end
        | None, Plain n =>
            (set_hitcount_table (<[k := to_row self n]> (hitcount_table w)) w,
             Ok self)
        | None, Expression _ => (w, Raise TypeError)
        end
    | None =>
        match hits self with
        | Plain n =>
            let k := fresh_pk (hitcount_table w) in
            (set_hitcount_table (<[k := to_row self n]> (hitcount_table w)) w,
             Ok (mk (Some k) (hits self) (modified self)
                   (content_type self) (object_id self)))
        | Expression _ => (w, Raise TypeError)
        end
    end.

(** [HitCount.save] *)
Definition save (self : t) : M t :=
  let* now := utcnow in
  let self := mk (pk self) (hits self) now
                (content_type self) (object_id self) in
  super_save self.

(** [self.hit_set]: the hits whose foreign key is this instance. *)
Definition hit_set (self : t) : QuerySet := [hitcount__exact (pk self)].

(** [HitCount.hits_in_last] *)
Definition hits_in_last (self : t) (kwargs : gmap string pyval) : M Z :=
  do* assert_ (negb (bool_decide (kwargs = ∅)))
        "Must provide at least one timedelta arg (eg, days=1)" in
  let* now := utcnow in
  let* delta := lift (timedelta kwargs) in
  let period := now - delta in
  qs_count (qs_filter (hit_set self) [created__gte period]).

(** The instance built from the row stored under key [k]. *)
Definition of_row (k : Z) (r : HitCountRow) : t :=
  mk (Some k) (Plain (row_hits r)) (row_modified r)
    (row_content_type r) (row_object_id r).

(** [HitCount.objects.get(pk=k)] *)
Definition get (k : Z) : M t :=
  fun w =>
    match hitcount_table w !! k with
    | Some r => (w, Ok (of_row k r))
    | None => (w, Raise DoesNotExist)
    end.

End HitCount.

(** ** [class HitManager] *)
Module HitManager.

(** [self.get_query_set()]: every row of the [Hit] table. *)
Definition get_query_set : QuerySet := [].

(** [getattr(settings, 'HITCOUNT_KEEP_HIT_ACTIVE', {'days':7})] *)
Definition grace (w : World) : gmap string pyval :=
  match HITCOUNT_KEEP_HIT_ACTIVE w with
  | Some g => g
  | None => {[ "days"%string := PInt 7 ]}
  end.

Definition grace_setting : M (gmap string pyval) :=
  fun w => (w, Ok (grace w)).

(** [HitManager.filter_active]; [args] are the caller's lookups. *)
Definition filter_active (args : list lookup) : M QuerySet :=
  let* grace := grace_setting in
  let* now := utcnow in
  let* delta := lift (timedelta grace) in
  let period := now - delta in
  let queryset := get_query_set in
  let queryset := qs_filter queryset [created__gte period] in
  ret (qs_filter queryset args).

End HitManager.

(** ** [class Hit] *)
Module Hit.

(** The related [HitCount] instance is carried by the instance itself. *)
Record t := mk {
  pk : option Z;
  created : option datetime;
  ip : string;
  session : string;
  user_agent : string;
  user : option Z;
  hitcount : HitCount.t
}.

(** Truth value of the [created] attribute: [None] is false, a
    [datetime] is true. *)
Definition truthy (c : option datetime) : bool :=
  match c with
  | Some _ => true
  | None => false
  end.

(** [models.Model.save]: [created] and the foreign key are [NOT NULL]
    columns; the row is written under the instance's key, or under a new
    key when it has none. *)
Definition super_save (self : t) : M t :=
  fun w =>
    match created self, HitCount.pk (hitcount self) with
    | Some c, Some h =>
        let row := mkHitRow c (ip self) (session self) (user_agent self)
                     (user self) h in
        match pk self with
        | Some k =>
            (set_hit_table (<[k := row]> (hit_table w)) w, Ok self)
        | None =>
            let k := fresh_pk (hit_table w) in
            (set_hit_table (<[k := row]> (hit_table w)) w,
             Ok (mk (Some k) (created self) (ip self) (session self)
                   (user_agent self) (user self) (hitcount self)))
        end
    | _, _ => (w, Raise IntegrityError)
    end.

(** [Hit.save] *)
Definition save (self : t) : M t :=
  let* self :=
    (if negb (truthy (created self)) then
       let hc := hitcount self in
       let hc := HitCount.mk (HitCount.pk hc)
                   (Expression (Add (F "hits") 1))
                   (HitCount.modified hc) (HitCount.content_type hc)
                   (HitCount.object_id hc) in
       let* hc := HitCount.save hc in
       let* now := utcnow in
       ret (mk (pk self) (Some now) (ip self) (session self)
              (user_agent self) (user self) hc)
     else ret self) in
  super_save self.

(** The instance built from the row stored under key [k]. *)
Definition of_row (k : Z) (r : HitRow) (hc : HitCount.t) : t :=
  mk (Some k) (Some (row_created r)) (row_ip r) (row_session r)
    (row_user_agent r) (row_user r) hc.

(** [Hit.objects.get(pk=k)], with the related [HitCount] fetched. *)
Definition get (k : Z) : M t :=
  fun w =>
    match hit_table w !! k with
    | Some r =>
        match HitCount.get (row_hitcount_id r) w with
        | (w', Ok hc) => (w', Ok (of_row k r hc))
        | (w', Raise e) => (w', Raise e)
        end
    | None => (w, Raise DoesNotExist)
    end.

End Hit.

(** ** Signal catching *)

(** [subtract_hit_count(sender, instance)] *)
Definition subtract_hit_count (instance : Hit.t) : M Hit.t :=
  let hc := Hit.hitcount instance in
  let hc := HitCount.mk (HitCount.pk hc)
              (Expression (Sub (F "hits") 1))
              (HitCount.modified hc) (HitCount.content_type hc)
              (HitCount.object_id hc) in
  let* hc := HitCount.save hc in
  ret (Hit.mk (Hit.pk instance) (Hit.created instance) (Hit.ip instance)
         (Hit.session instance) (Hit.user_agent instance)
         (Hit.user instance) hc).

(** [pre_delete.connect(subtract_hit_count, sender=Hit)]: the receivers of
    the [pre_delete] signal sent for a [Hit]. *)
Definition pre_delete_receivers : list (Hit.t -> M Hit.t) :=
  [subtract_hit_count].

Fixpoint send (receivers : list (Hit.t -> M Hit.t)) (instance : Hit.t)
  : M Hit.t :=
  match receivers with
  | [] => ret instance
  | f :: rest => let* instance := f instance in send rest instance
  end.

(** [models.Model.delete] on a [Hit]: the instance must have a key; the
    [pre_delete] signal is sent, then the row is removed and the key of the
    instance cleared. *)
Definition Hit_delete (self : Hit.t) : M Hit.t :=
  match Hit.pk self with
  | None =>
      raise
        (AssertionError
           "Hit object can't be deleted because its id attribute is set to None.")
  | Some k =>
      let* self := send pre_delete_receivers self in
      fun w =>
        (set_hit_table (delete k (hit_table w)) w,
         Ok (Hit.mk None (Hit.created self) (Hit.ip self) (Hit.session self)
               (Hit.user_agent self) (Hit.user self) (Hit.hitcount self)))
  end.


(** ** Callers

    The ways the rest of the application drives the models: each request
    fetches or builds an instance and calls one operation on it.  An
    exception ends the request; the writes made before it stay. *)
Inductive request :=
| Create (ct oid : Z)
| View (k : Z) (ip session user_agent : string) (user : option Z)
| Resave (p : Z)
| Remove (p : Z)
| Touch (k : Z)
| HitsInLast (k : Z) (kwargs : gmap string pyval)
| FilterActive (args : list lookup).




(** ** Observations on a world *)

(** The stored counter of aggregate [k]. *)
Definition hits_at (w : World) (k : Z) : option Z :=
  row_hits <$> hitcount_table w !! k.

(** The stored [modified] timestamp of aggregate [k]. *)
Definition modified_at (w : World) (k : Z) : option datetime :=
  row_modified <$> hitcount_table w !! k.

(** The stored events of aggregate [k], and their number. *)
Definition events_of (w : World) (k : Z) : gmap Z HitRow :=
  filter (fun kr => row_hitcount_id kr.2 = k) (hit_table w).

Definition count_events (w : World) (k : Z) : Z :=
  Z.of_nat (size (events_of w k)).

(** Every stored counter is the number of stored events of its aggregate,
    and no event belongs to an aggregate that is not stored. *)
Definition consistent (w : World) : Prop :=
  forall k, count_events w k = default 0 (hits_at w k).

(** What a request adds to the counter of a stored aggregate [k]. *)
Definition delta (rq : request) (w : World) (k : Z) : Z :=
  match rq with
  | View k' _ _ _ _ => if decide (k' = k) then 1 else 0
  | Remove p =>
      match hit_table w !! p with
      | Some r => if decide (row_hitcount_id r = k) then -1 else 0
      | None => 0
      end
  | _ => 0
  end.

(** The reading the clock gives to the next call of [utcnow]. *)
Definition now_of (w : World) : datetime := clock w (ticks w).

(** The world once the clock has been read [n] more times. *)
Definition tick (n : nat) (w : World) : World :=
  mkWorld (hitcount_table w) (hit_table w) (HITCOUNT_KEEP_HIT_ACTIVE w)
    (clock w) (n + ticks w).

(** A keyword that [timedelta] does not take, or a value that is not an
    integer. *)
Definition unparseable (kwargs : gmap string pyval) : Prop :=
  exists name v, kwargs !! name = Some v /\
    (name ∉ timedelta_keywords \/ forall n, v <> PInt n).

Definition day : Z := 86400 * us_per_second.

(** ** What one call writes *)

(** The [hits] expression of [hc] replaced by [v]. *)
Definition with_hits (v : field_value) (hc : HitCount.t) : HitCount.t :=
  HitCount.mk (HitCount.pk hc) v (HitCount.modified hc)
    (HitCount.content_type hc) (HitCount.object_id hc).

(** The instance after a save at clock reading [t] under key [k]. *)
Definition saved_at (k : Z) (t : datetime) (hc : HitCount.t) : HitCount.t :=
  HitCount.mk (Some k) (HitCount.hits hc) t
    (HitCount.content_type hc) (HitCount.object_id hc).

(** The world after a save of [hc] that stores the counter [n] under [k]. *)
Definition after_save (k n : Z) (hc : HitCount.t) (w : World) : World :=
  mkWorld
    (<[k := mkHitCountRow n (now_of w) (HitCount.content_type hc)
              (HitCount.object_id hc)]> (hitcount_table w))
    (hit_table w) (HITCOUNT_KEEP_HIT_ACTIVE w) (clock w) (S (ticks w)).

(** The row a [Hit] instance is stored as. *)
Definition hit_row (c : datetime) (owner : Z) (h : Hit.t) : HitRow :=
  mkHitRow c (Hit.ip h) (Hit.session h) (Hit.user_agent h) (Hit.user h) owner.

(** The key a [Hit] instance is stored under. *)
Definition hit_key (h : Hit.t) (w : World) : Z :=
  match Hit.pk h with
  | Some p => p
  | None => fresh_pk (hit_table w)
  end.

(** A save is accepted when the counter is a plain number, or an expression
    that the stored row of the instance can evaluate. *)
Definition saveable (w : World) (hc : HitCount.t) : Prop :=
  match HitCount.hits hc with
  | Plain _ => True
  | Expression e =>
      exists k old, HitCount.pk hc = Some k
        /\ hitcount_table w !! k = Some old
        /\ is_Some (HitCount.eval old e)
  end.

(** The stored events owned by [owner] and created at [since] or later. *)
Definition window_events (w : World) (owner : option Z) (since : datetime)
  : gmap Z HitRow :=
  filter (fun kr => Some (row_hitcount_id kr.2) = owner
                    /\ since <= row_created kr.2) (hit_table w).





(** ** Labels *)

(** [u'%s' % self.pk]: [None] for an instance without key, the decimal
    digits of the key otherwise. *)
Definition unicode_of_pk (k : option Z) : string :=
  match k with
  | Some n => pretty n
  | None => "None"
  end.

(** [Hit.__unicode__] *)
Definition Hit__unicode__ (self : Hit.t) : string :=
  "Hit: " +:+ unicode_of_pk (Hit.pk self).


(** ** Sample data *)

Definition noon : datetime := 20000 * day.

Definition sample_clock (n : nat) : datetime := noon + Z.of_nat n.

Definition sample_hitcount : HitCount.t := HitCount.mk (Some 1) (Plain 2) 0 5 9.

(** One aggregate with two events, one a day old and one ten days old. *)
Definition sample_world : World :=
  mkWorld {[ 1 := mkHitCountRow 2 0 5 9 ]}
    {[ 1 := mkHitRow (noon - 1 * day) "10.0.0.1" "s1" "Mozilla" None 1;
       2 := mkHitRow (noon - 10 * day) "10.0.0.2" "s2" "Mozilla" None 1 ]}
    None sample_clock 0.

(** One aggregate whose counter is 0 although an event is stored. *)
Definition drained_world : World :=
  mkWorld {[ 1 := mkHitCountRow 0 0 5 9 ]}
    {[ 1 := mkHitRow (noon - 1 * day) "10.0.0.1" "s1" "Mozilla" None 1 ]}
    None sample_clock 0.


Definition empty_world : World := mkWorld ∅ ∅ None sample_clock 0.

(** The setting of the docstring of [filter_active], with one event 29 days
    old and one 31 days old. *)
Definition month_world : World :=
  mkWorld {[ 1 := mkHitCountRow 2 0 5 9 ]}
    {[ 1 := mkHitRow (noon - 29 * day) "10.0.0.1" "s1" "Mozilla" None 1;
       2 := mkHitRow (noon - 31 * day) "10.0.0.2" "s2" "Mozilla" None 1 ]}
    (Some {[ "days"%string := PInt 30; "minutes"%string := PInt 30 ]})
    sample_clock 0.

Definition sample_hit : Hit.t :=
  Hit.mk None None "10.0.0.3" "s3" "Mozilla" None sample_hitcount.

Definition stored_hit : Hit.t :=
  Hit.mk (Some 1) (Some (noon - 1 * day)) "10.0.0.1" "s1" "Mozilla" None
    sample_hitcount.

(** * Properties *)

(** ** The store *)

Lemma fresh_pk_above {A} (t : gmap Z A) k :
  is_Some (t !! k) -> k < fresh_pk t.
Proof.
  unfold fresh_pk. revert k.
  apply (map_fold_weak_ind
           (fun acc (m : gmap Z A) => forall k, is_Some (m !! k) -> k < acc)).
  - intros k [x Hx]. by rewrite lookup_empty in Hx.
  - intros i x m acc Hi IH k Hk.
    destruct (decide (i = k)) as [->|Hne]; [lia|].
    rewrite lookup_insert_ne in Hk by done.
    specialize (IH k Hk). lia.
Qed.

Lemma fresh_pk_None {A} (t : gmap Z A) : t !! fresh_pk t = None.
Proof.
  destruct (t !! fresh_pk t) as [x|] eqn:E; [|done].
  assert (fresh_pk t < fresh_pk t) by (apply fresh_pk_above; eauto). lia.
Qed.

(** ** Durations *)

Lemma timedelta_arg_cases kwargs name :
  (exists n, timedelta_arg kwargs name = Ok n)
  \/ timedelta_arg kwargs name = Raise TypeError.
Proof.
  unfold timedelta_arg.
  destruct (kwargs !! name) as [[n| |]|]; eauto.
Qed.

Lemma timedelta_arg_Ok kwargs name n :
  timedelta_arg kwargs name = Ok n ->
  kwargs !! name = None \/ kwargs !! name = Some (PInt n).
Proof.
  unfold timedelta_arg.
  destruct (kwargs !! name) as [[m| |]|]; intros H; inversion H; auto.
Qed.

Lemma timedelta_cases kwargs :
  (exists d, timedelta kwargs = Ok d) \/ timedelta kwargs = Raise TypeError.
Proof.
  unfold timedelta. case_decide; [|by right].
  repeat match goal with
  | |- context [result_bind (timedelta_arg kwargs ?x) _] =>
      destruct (timedelta_arg_cases kwargs x) as [[? ->] | ->];
      simpl; [|by right]
  end.
  left; eauto.
Qed.

Lemma timedelta_Ok_inv kwargs d :
  timedelta kwargs = Ok d ->
  dom kwargs ⊆ list_to_set timedelta_keywords
  /\ forall name, name ∈ timedelta_keywords ->
       exists n, timedelta_arg kwargs name = Ok n.
Proof.
  unfold timedelta. case_decide as Hdom; [|done].
  intros H. split; [done|].
  repeat match type of H with
  | context [result_bind (timedelta_arg kwargs ?x) _] =>
      let E := fresh "E" in
      destruct (timedelta_arg kwargs x) eqn:E; simpl in H; [|done]
  end.
  intros name Hname. unfold timedelta_keywords in Hname.
  repeat (apply elem_of_cons in Hname as [->|Hname]; [eauto|]).
  by apply elem_of_nil in Hname.
Qed.

Lemma timedelta_unparseable kwargs :
  unparseable kwargs -> timedelta kwargs = Raise TypeError.
Proof.
  intros (name & v & Hv & Hbad).
  destruct (timedelta_cases kwargs) as [[d Hd]|]; [|done].
  exfalso. apply timedelta_Ok_inv in Hd as [Hdom Hargs].
  assert (name ∈ timedelta_keywords) as Hin.
  { apply (elem_of_list_to_set (C := gset string)), Hdom, elem_of_dom.
    eauto. }
  destruct Hbad as [Hbad|Hbad]; [done|].
  destruct (Hargs name Hin) as [n Hn].
  apply timedelta_arg_Ok in Hn as [Hn|Hn]; rewrite Hv in Hn; [done|].
  inversion Hn. by eapply Hbad.
Qed.



Example timedelta_docstring :
  timedelta {[ "days"%string := PInt 30; "minutes"%string := PInt 30 ]}
  = Ok (30 * day + 30 * 60 * us_per_second).
Proof. vm_compute. reflexivity. Qed.

Example timedelta_mixed :
  timedelta {[ "weeks"%string := PInt 1; "hours"%string := PInt (-2);
               "milliseconds"%string := PInt 5 ]}
  = Ok (7 * day - 2 * 3600 * us_per_second + 5000).
Proof. vm_compute. reflexivity. Qed.

(** ** Saving and deleting *)

Lemma HitCount_save_plain w hc k n :
  HitCount.pk hc = Some k ->
  HitCount.hits hc = Plain n ->
  HitCount.save hc w = (after_save k n hc w, Ok (saved_at k (now_of w) hc)).
Proof.
  intros Hpk Hhits.
  unfold HitCount.save, bind, utcnow, HitCount.super_save. simpl.
  rewrite Hpk, Hhits. unfold after_save, saved_at. rewrite Hhits.
  by destruct (hitcount_table w !! k).
Qed.


Lemma hits_at_after_save k n hc w : hits_at (after_save k n hc w) k = Some n.
Proof. unfold hits_at, after_save. simpl. by rewrite lookup_insert_eq. Qed.


Lemma Hit_save_again w h c k :
  Hit.created h = Some c ->
  HitCount.pk (Hit.hitcount h) = Some k ->
  Hit.save h w =
    (set_hit_table (<[hit_key h w := hit_row c k h]> (hit_table w)) w,
     Ok (Hit.mk (Some (hit_key h w)) (Some c) (Hit.ip h) (Hit.session h)
           (Hit.user_agent h) (Hit.user h) (Hit.hitcount h))).
Proof.
  intros Hc Hpk.
  unfold Hit.save. rewrite Hc. simpl.
  unfold bind, ret, Hit.super_save, hit_key, hit_row. rewrite Hc, Hpk.
  destruct h as [[p|] ? ? ? ? ? ?]; simpl in *; subst; reflexivity.
Qed.

(** The calls that update the row of a stored aggregate: [k] is the key of
    an aggregate of the world [w], and [old] its row. *)
Section StoredOwner.

Context (w : World) (k : Z) (old : HitCountRow).
Hypothesis Hrow : hitcount_table w !! k = Some old.

Lemma HitCount_save_update hc e n :
  HitCount.pk hc = Some k ->
  HitCount.hits hc = Expression e ->
  HitCount.eval old e = Some n ->
  HitCount.save hc w = (after_save k n hc w, Ok (saved_at k (now_of w) hc)).
Proof.
  intros Hpk Hhits Heval.
  unfold HitCount.save, bind, utcnow, HitCount.super_save. simpl.
  rewrite Hpk, Hrow, Hhits, Heval.
  unfold after_save, saved_at. by rewrite Hhits.
Qed.

Lemma Hit_save_first h :
  Hit.created h = None ->
  HitCount.pk (Hit.hitcount h) = Some k ->
  let t1 := clock w (ticks w) in
  let t2 := clock w (S (ticks w)) in
  let hc := saved_at k t1
              (with_hits (Expression (Add (F "hits") 1)) (Hit.hitcount h)) in
  Hit.save h w =
    (mkWorld
       (<[k := mkHitCountRow (row_hits old + 1) t1
                 (HitCount.content_type (Hit.hitcount h))
                 (HitCount.object_id (Hit.hitcount h))]> (hitcount_table w))
       (<[hit_key h w := hit_row t2 k h]> (hit_table w))
       (HITCOUNT_KEEP_HIT_ACTIVE w) (clock w) (S (S (ticks w))),
     Ok (Hit.mk (Some (hit_key h w)) (Some t2) (Hit.ip h) (Hit.session h)
           (Hit.user_agent h) (Hit.user h) hc)).
Proof.
  intros Hc Hpk. simpl.
  unfold Hit.save. rewrite Hc. simpl. unfold bind at 1. unfold bind at 1.
  erewrite HitCount_save_update; [| exact Hpk | reflexivity | reflexivity].
  unfold bind, utcnow, ret, Hit.super_save, hit_key, hit_row. simpl.
  destruct (Hit.pk h); reflexivity.
Qed.

Lemma subtract_hit_count_spec h :
  HitCount.pk (Hit.hitcount h) = Some k ->
  let hc := with_hits (Expression (Sub (F "hits") 1)) (Hit.hitcount h) in
  subtract_hit_count h w =
    (after_save k (row_hits old - 1) hc w,
     Ok (Hit.mk (Hit.pk h) (Hit.created h) (Hit.ip h) (Hit.session h)
           (Hit.user_agent h) (Hit.user h) (saved_at k (now_of w) hc))).
Proof.
  intros Hpk. simpl.
  unfold subtract_hit_count. unfold bind at 1.
  erewrite HitCount_save_update; [| exact Hpk | reflexivity | reflexivity].
  reflexivity.
Qed.

Lemma Hit_delete_spec h p :
  Hit.pk h = Some p ->
  HitCount.pk (Hit.hitcount h) = Some k ->
  let hc := with_hits (Expression (Sub (F "hits") 1)) (Hit.hitcount h) in
  Hit_delete h w =
    (set_hit_table (delete p (hit_table w))
       (after_save k (row_hits old - 1) hc w),
     Ok (Hit.mk None (Hit.created h) (Hit.ip h) (Hit.session h)
           (Hit.user_agent h) (Hit.user h) (saved_at k (now_of w) hc))).
Proof.
  intros Hp Hpk. simpl.
  unfold Hit_delete. rewrite Hp. simpl. unfold bind at 1. unfold bind at 1.
  erewrite subtract_hit_count_spec by eassumption.
  reflexivity.
Qed.

End StoredOwner.


Lemma HitCount_save_refused w hc :
  ~ saveable w hc -> exists e, HitCount.save hc w = (tick 1 w, Raise e).
Proof.
  unfold saveable. intros Hno.
  destruct (HitCount.hits hc) as [n|ex] eqn:Hh; [done|].
  unfold HitCount.save, bind, utcnow, HitCount.super_save.
  cbn [HitCount.pk HitCount.hits hitcount_table]. rewrite Hh.
  destruct (HitCount.pk hc) as [k|] eqn:Hpk; [|by exists TypeError].
  destruct (hitcount_table w !! k) as [old|] eqn:Hrow; [|by exists TypeError].
  destruct (HitCount.eval old ex) as [n|] eqn:En; [|by exists FieldError].
  exfalso. apply Hno. exists k, old. split; [done|]. split; [done|].
  by exists n.
Qed.

(** C2: the first save of a [Hit], the one that finds [created] unset, adds
    1 to the counter of the owning [HitCount] and assigns [created] the
    reading of the clock; every later save of the saved instance, in any
    world, returns it unchanged, leaves the [HitCount] table as it was and
    stores the same [created]. *)
Theorem created_set_once
    (w : World) (h : Hit.t) (k : Z) (old : HitCountRow) :
  Hit.created h = None ->
  HitCount.pk (Hit.hitcount h) = Some k ->
  hitcount_table w !! k = Some old ->
  exists w1 h1 p,
    Hit.save h w = (w1, Ok h1)
    /\ Hit.pk h1 = Some p
    /\ Hit.created h1 = Some (clock w (S (ticks w)))
    /\ row_created <$> hit_table w1 !! p = Some (clock w (S (ticks w)))
    /\ hits_at w1 k = Some (row_hits old + 1)
    /\ forall w2, exists w3,
         Hit.save h1 w2 = (w3, Ok h1)
         /\ hitcount_table w3 = hitcount_table w2
         /\ ticks w3 = ticks w2
         /\ row_created <$> hit_table w3 !! p = Some (clock w (S (ticks w))).
Proof.
  intros Hc Hpk Hrow.
  pose proof (Hit_save_first w k old Hrow h Hc Hpk) as Hs. simpl in Hs.
  eexists _, _, (hit_key h w). split; [exact Hs|].
  split; [reflexivity|]. split; [reflexivity|].
  split; [|split].
  - simpl. by rewrite lookup_insert_eq.
  - unfold hits_at. simpl. by rewrite lookup_insert_eq.
  - intros w2. eexists. split.
    + erewrite Hit_save_again by reflexivity. reflexivity.
    + simpl. by rewrite lookup_insert_eq.
Qed.

(** The first save of [sample_hit] in [sample_world]. *)
Lemma created_set_once_witness :
  Hit.created sample_hit = None
  /\ HitCount.pk (Hit.hitcount sample_hit) = Some 1
  /\ hitcount_table sample_world !! 1 = Some (mkHitCountRow 2 0 5 9)
  /\ exists w1 h1 p,
       Hit.save sample_hit sample_world = (w1, Ok h1)
       /\ Hit.pk h1 = Some p
       /\ Hit.created h1 = Some (noon + 1)
       /\ row_created <$> hit_table w1 !! p = Some (noon + 1)
       /\ hits_at w1 1 = Some 3
       /\ forall w2, exists w3,
            Hit.save h1 w2 = (w3, Ok h1)
            /\ hitcount_table w3 = hitcount_table w2
            /\ ticks w3 = ticks w2
            /\ row_created <$> hit_table w3 !! p = Some (noon + 1).
Proof.
  split; [reflexivity|]. split; [reflexivity|]. split; [reflexivity|].
  apply (created_set_once sample_world sample_hit 1 (mkHitCountRow 2 0 5 9));
    reflexivity.
Defined.

(** C3: deleting a saved [Hit] whose owning [HitCount] is stored succeeds,
    removes the row of the [Hit], and leaves the owner's counter at its
    value before the deletion minus 1; no other aggregate is written. *)
Theorem delete_decrements_owner
    (w : World) (h : Hit.t) (p k : Z) (old : HitCountRow) :
  Hit.pk h = Some p ->
  HitCount.pk (Hit.hitcount h) = Some k ->
  hitcount_table w !! k = Some old ->
  exists w' h',
    Hit_delete h w = (w', Ok h')
    /\ hits_at w' k = Some (row_hits old - 1)
    /\ (forall k', k' <> k ->
          hitcount_table w' !! k' = hitcount_table w !! k')
    /\ hit_table w' = delete p (hit_table w).
Proof.
  intros Hp Hpk Hrow.
  pose proof (Hit_delete_spec w k old Hrow h p Hp Hpk) as Hs. simpl in Hs.
  eexists _, _. split; [exact Hs|].
  split; [|split].
  - unfold hits_at. simpl. by rewrite lookup_insert_eq.
  - intros k' Hne. simpl. by rewrite lookup_insert_ne.
  - reflexivity.
Qed.

(** The deletion of [stored_hit] in [sample_world]: the counter goes from 2
    to 1. *)
Lemma delete_decrements_owner_witness :
  Hit.pk stored_hit = Some 1
  /\ HitCount.pk (Hit.hitcount stored_hit) = Some 1
  /\ hitcount_table sample_world !! 1 = Some (mkHitCountRow 2 0 5 9)
  /\ exists w' h',
       Hit_delete stored_hit sample_world = (w', Ok h')
       /\ hits_at w' 1 = Some 1
       /\ (forall k', k' <> 1 ->
             hitcount_table w' !! k' = hitcount_table sample_world !! k')
       /\ hit_table w' = delete 1 (hit_table sample_world).
Proof.
  split; [reflexivity|]. split; [reflexivity|]. split; [reflexivity|].
  apply (delete_decrements_owner sample_world stored_hit 1 1
           (mkHitCountRow 2 0 5 9)); reflexivity.
Defined.



(** C8: the decrement has no floor.  On an aggregate whose stored counter is
    0 or less, the receiver of the deletion signal, and the deletion that
    sends it, succeed and store the counter minus 1, a negative number; from
    0 the stored counter becomes -1. *)
Theorem decrement_has_no_floor
    (w : World) (h : Hit.t) (k : Z) (old : HitCountRow) :
  HitCount.pk (Hit.hitcount h) = Some k ->
  hitcount_table w !! k = Some old ->
  row_hits old <= 0 ->
  (exists w' h',
     subtract_hit_count h w = (w', Ok h')
     /\ hits_at w' k = Some (row_hits old - 1)
     /\ row_hits old - 1 < 0
     /\ (row_hits old = 0 -> hits_at w' k = Some (-1)))
  /\ (forall p, Hit.pk h = Some p ->
        exists w' h',
          Hit_delete h w = (w', Ok h')
          /\ hits_at w' k = Some (row_hits old - 1)).
Proof.
  intros Hpk Hrow Hle. split.
  - pose proof (subtract_hit_count_spec w k old Hrow h Hpk) as Hs.
    simpl in Hs. eexists _, _. split; [exact Hs|].
    rewrite hits_at_after_save. split; [done|]. split; [lia|].
    by intros ->.
  - intros p Hp.
    pose proof (Hit_delete_spec w k old Hrow h p Hp Hpk) as Hs. simpl in Hs.
    eexists _, _. split; [exact Hs|].
    unfold hits_at. simpl. by rewrite lookup_insert_eq.
Qed.

(** The deletion of [stored_hit] in [drained_world]: the counter goes from
    0 to -1. *)
Lemma decrement_has_no_floor_witness :
  HitCount.pk (Hit.hitcount stored_hit) = Some 1
  /\ hitcount_table drained_world !! 1 = Some (mkHitCountRow 0 0 5 9)
  /\ row_hits (mkHitCountRow 0 0 5 9) <= 0
  /\ (exists w' h',
        subtract_hit_count stored_hit drained_world = (w', Ok h')
        /\ hits_at w' 1 = Some (0 - 1)
        /\ 0 - 1 < 0
        /\ (0 = 0 -> hits_at w' 1 = Some (-1)))
  /\ (forall p, Hit.pk stored_hit = Some p ->
        exists w' h',
          Hit_delete stored_hit drained_world = (w', Ok h')
          /\ hits_at w' 1 = Some (0 - 1)).
Proof.
  split; [reflexivity|]. split; [reflexivity|]. split; [simpl; lia|].
  apply (decrement_has_no_floor drained_world stored_hit 1
           (mkHitCountRow 0 0 5 9)); [reflexivity | reflexivity | simpl; lia].
Defined.

(** C10: deleting a saved [Hit] whose owning [HitCount] is stored replaces
    the owner's stored [modified] by the reading of the clock, whatever it
    was; when the two differ, [modified] is not what it was before the
    deletion. *)
Theorem delete_resets_modified
    (w : World) (h : Hit.t) (p k : Z) (old : HitCountRow) :
  Hit.pk h = Some p ->
  HitCount.pk (Hit.hitcount h) = Some k ->
  hitcount_table w !! k = Some old ->
  exists w' h',
    Hit_delete h w = (w', Ok h')
    /\ modified_at w' k = Some (now_of w)
    /\ hits_at w' k = Some (row_hits old - 1)
    /\ (row_modified old <> now_of w -> modified_at w' k <> modified_at w k).
Proof.
  intros Hp Hpk Hrow.
  pose proof (Hit_delete_spec w k old Hrow h p Hp Hpk) as Hs. simpl in Hs.
  eexists _, _. split; [exact Hs|].
  assert (forall n hc,
    modified_at (set_hit_table (delete p (hit_table w)) (after_save k n hc w)) k
    = Some (now_of w)) as Hm.
  { intros. unfold modified_at. simpl. by rewrite lookup_insert_eq. }
  split; [apply Hm|]. split.
  - unfold hits_at. simpl. by rewrite lookup_insert_eq.
  - intros Hne. rewrite Hm. unfold modified_at. rewrite Hrow. simpl.
    congruence.
Qed.

(** The deletion of [stored_hit] in [sample_world]: [modified] goes from 0
    to [noon]. *)
Lemma delete_resets_modified_witness :
  Hit.pk stored_hit = Some 1
  /\ HitCount.pk (Hit.hitcount stored_hit) = Some 1
  /\ hitcount_table sample_world !! 1 = Some (mkHitCountRow 2 0 5 9)
  /\ exists w' h',
       Hit_delete stored_hit sample_world = (w', Ok h')
       /\ modified_at w' 1 = Some noon
       /\ hits_at w' 1 = Some 1
       /\ (0 <> noon -> modified_at w' 1 <> modified_at sample_world 1).
Proof.
  split; [reflexivity|]. split; [reflexivity|]. split; [reflexivity|].
  apply (delete_resets_modified sample_world stored_hit 1 1
           (mkHitCountRow 2 0 5 9)); reflexivity.
Defined.

(** ** Queries *)

Lemma qs_rows_lookup q w p r :
  qs_rows q w !! p = Some r <->
  hit_table w !! p = Some r /\ qs_matches q p r = true.
Proof. unfold qs_rows. by rewrite map_lookup_filter_Some. Qed.








Lemma hits_in_last_no_argument w hc :
  HitCount.hits_in_last hc ∅ w =
    (w, Raise (AssertionError
                 "Must provide at least one timedelta arg (eg, days=1)")).
Proof.
  unfold HitCount.hits_in_last.
  rewrite bool_decide_eq_true_2 by done. reflexivity.
Qed.

(** C9: [hits_in_last] called without any duration argument raises the
    [AssertionError] of its first line; nothing is counted, and neither the
    store nor the clock is touched. *)
Theorem hits_in_last_requires_argument (w : World) (hc : HitCount.t) :
  HitCount.hits_in_last hc ∅ w =
    (w, Raise (AssertionError
                 "Must provide at least one timedelta arg (eg, days=1)")).
Proof. apply hits_in_last_no_argument. Qed.




Lemma filter_active_spec w args d :
  timedelta (HitManager.grace w) = Ok d ->
  HitManager.filter_active args w =
    (tick 1 w, Ok (created__gte (now_of w - d) :: args)).
Proof.
  intros Hd. unfold HitManager.filter_active, HitManager.grace_setting.
  unfold bind, utcnow, lift, ret. simpl. by rewrite Hd.
Qed.

Lemma qs_rows_since t args w p r :
  qs_rows (created__gte t :: args) w !! p = Some r <->
  hit_table w !! p = Some r /\ t <= row_created r
  /\ qs_matches args p r = true.
Proof.
  rewrite qs_rows_lookup. unfold qs_matches. simpl.
  rewrite andb_true_iff, bool_decide_eq_true. tauto.
Qed.

Example filter_active_month :
  exists q,
    (HitManager.filter_active [] month_world).2 = Ok q
    /\ is_Some (qs_rows q month_world !! 1)
    /\ qs_rows q month_world !! 2 = None.
Proof.
  exists [created__gte (noon - (30 * day + 30 * 60 * us_per_second))].
  split; [vm_compute; reflexivity|].
  split; [|vm_compute; reflexivity].
  eexists. vm_compute. reflexivity.
Qed.

Example filter_active_session :
  exists q,
    (HitManager.filter_active [session__exact "s2"] sample_world).2 = Ok q
    /\ dom (qs_rows q sample_world) = ∅.
Proof.
  eexists. split; [vm_compute; reflexivity|]. vm_compute. reflexivity.
Qed.




(** ** Requests *)



Lemma bind_Ok {A B} (m : M A) (f : A -> M B) w w' a :
  m w = (w', Ok a) -> bind m f w = f a w'.
Proof. intros H. unfold bind. by rewrite H. Qed.

Lemma bind_Raise {A B} (m : M A) (f : A -> M B) w w' e :
  m w = (w', Raise e) -> bind m f w = (w', Raise e).
Proof. intros H. unfold bind. by rewrite H. Qed.

Lemma HitCount_get_Some w k r :
  hitcount_table w !! k = Some r ->
  HitCount.get k w = (w, Ok (HitCount.of_row k r)).
Proof. intros H. unfold HitCount.get. by rewrite H. Qed.


Lemma Hit_get_Some w p r old :
  hit_table w !! p = Some r ->
  hitcount_table w !! row_hitcount_id r = Some old ->
  Hit.get p w =
    (w, Ok (Hit.of_row p r (HitCount.of_row (row_hitcount_id r) old))).
Proof.
  intros Hp Hk. unfold Hit.get. rewrite Hp.
  by rewrite (HitCount_get_Some _ _ _ Hk).
Qed.



Lemma owned_insert_fresh (t : gmap Z HitRow) p r k :
  t !! p = None ->
  Z.of_nat (size (filter (fun kr : Z * HitRow => row_hitcount_id kr.2 = k)
                    (<[p := r]> t)))
  = Z.of_nat (size (filter (fun kr : Z * HitRow => row_hitcount_id kr.2 = k)
                      t))
    + (if decide (row_hitcount_id r = k) then 1 else 0).
Proof.
  intros Hp. case_decide as Hk.
  - rewrite map_filter_insert_True by done.
    rewrite map_size_insert_None; [lia|].
    apply map_lookup_filter_None. by left.
  - rewrite map_filter_insert_not'; [lia | done |].
    intros y Hy. by rewrite Hp in Hy.
Qed.















(** * Further properties of the models *)

(** ** The counter and the events out of step *)

(** X1: after the first save of a [Hit], the [hits] attribute of its
    [HitCount] instance is still the expression [F('hits') + 1]; saving
    that instance once more adds 1 again, so the stored counter is 2 above
    its value before the view while one event was stored. *)
Theorem owner_saved_again_adds_again
    (w : World) (h : Hit.t) (k : Z) (old : HitCountRow) :
  Hit.created h = None ->
  HitCount.pk (Hit.hitcount h) = Some k ->
  hitcount_table w !! k = Some old ->
  exists w1 h1 w2 hc2,
    Hit.save h w = (w1, Ok h1)
    /\ HitCount.hits (Hit.hitcount h1) = Expression (Add (F "hits") 1)
    /\ hits_at w1 k = Some (row_hits old + 1)
    /\ HitCount.save (Hit.hitcount h1) w1 = (w2, Ok hc2)
    /\ hits_at w2 k = Some (row_hits old + 2)
    /\ hit_table w2 = hit_table w1.
Proof.
  intros Hc Hpk Hrow.
  pose proof (Hit_save_first w k old Hrow h Hc Hpk) as Hs. simpl in Hs.
  eexists _, _, _, _. split; [exact Hs|]. simpl.
  split; [reflexivity|].
  split; [unfold hits_at; simpl; by rewrite lookup_insert_eq|].
  split.
  - eapply HitCount_save_update; [| reflexivity | reflexivity | reflexivity].
    simpl. apply lookup_insert_eq.
  - rewrite hits_at_after_save. split; [|reflexivity].
    simpl. unfold HitCount.column. simpl. f_equal. lia.
Qed.

(** The first save of [sample_hit] in [sample_world], then a save of its
    aggregate: the counter goes from 2 to 4. *)
Lemma owner_saved_again_adds_again_witness :
  Hit.created sample_hit = None
  /\ HitCount.pk (Hit.hitcount sample_hit) = Some 1
  /\ hitcount_table sample_world !! 1 = Some (mkHitCountRow 2 0 5 9)
  /\ exists w1 h1 w2 hc2,
       Hit.save sample_hit sample_world = (w1, Ok h1)
       /\ HitCount.hits (Hit.hitcount h1) = Expression (Add (F "hits") 1)
       /\ hits_at w1 1 = Some 3
       /\ HitCount.save (Hit.hitcount h1) w1 = (w2, Ok hc2)
       /\ hits_at w2 1 = Some 4
       /\ hit_table w2 = hit_table w1.
Proof.
  split; [reflexivity|]. split; [reflexivity|]. split; [reflexivity|].
  apply (owner_saved_again_adds_again sample_world sample_hit 1
           (mkHitCountRow 2 0 5 9)); reflexivity.
Defined.

(** X2: the first save of a new [Hit] followed by the deletion of the saved
    instance leaves the counter of its aggregate and the whole [Hit] table
    as they were before the save; no other aggregate is written, and the
    instance is without key again. *)
Theorem save_then_delete_restores
    (w : World) (h : Hit.t) (k : Z) (old : HitCountRow) :
  Hit.pk h = None ->
  Hit.created h = None ->
  HitCount.pk (Hit.hitcount h) = Some k ->
  hitcount_table w !! k = Some old ->
  exists w1 h1 w2 h2,
    Hit.save h w = (w1, Ok h1)
    /\ Hit_delete h1 w1 = (w2, Ok h2)
    /\ hits_at w2 k = Some (row_hits old)
    /\ hit_table w2 = hit_table w
    /\ (forall k', k' <> k ->
          hitcount_table w2 !! k' = hitcount_table w !! k')
    /\ Hit.pk h2 = None.
Proof.
  intros Hp Hc Hpk Hrow.
  pose proof (Hit_save_first w k old Hrow h Hc Hpk) as Hs. simpl in Hs.
  eexists _, _, _, _. split; [exact Hs|].
  split.
  - eapply Hit_delete_spec; [| reflexivity | reflexivity].
    simpl. apply lookup_insert_eq.
  - simpl. split; [|split; [|split]].
    + unfold hits_at. simpl. rewrite lookup_insert_eq. simpl. f_equal. lia.
    + unfold hit_key. rewrite Hp. apply delete_insert_id, fresh_pk_None.
    + intros k' Hne. by rewrite !lookup_insert_ne.
    + reflexivity.
Qed.

(** [sample_hit] saved in [sample_world], then deleted. *)
Lemma save_then_delete_restores_witness :
  Hit.pk sample_hit = None
  /\ Hit.created sample_hit = None
  /\ HitCount.pk (Hit.hitcount sample_hit) = Some 1
  /\ hitcount_table sample_world !! 1 = Some (mkHitCountRow 2 0 5 9)
  /\ exists w1 h1 w2 h2,
       Hit.save sample_hit sample_world = (w1, Ok h1)
       /\ Hit_delete h1 w1 = (w2, Ok h2)
       /\ hits_at w2 1 = Some 2
       /\ hit_table w2 = hit_table sample_world
       /\ (forall k', k' <> 1 ->
             hitcount_table w2 !! k' = hitcount_table sample_world !! k')
       /\ Hit.pk h2 = None.
Proof.
  split; [reflexivity|]. split; [reflexivity|]. split; [reflexivity|].
  split; [reflexivity|].
  apply (save_then_delete_restores sample_world sample_hit 1
           (mkHitCountRow 2 0 5 9)); reflexivity.
Defined.

(** X3: a new [Hit] whose [created] is already set is stored by its first
    save without any increment: the [HitCount] table is untouched while the
    aggregate has one event more, so a world where every counter was the
    number of stored events is no longer one. *)
Theorem preset_created_skips_increment
    (w : World) (h : Hit.t) (c : datetime) (k : Z) :
  Hit.pk h = None ->
  Hit.created h = Some c ->
  HitCount.pk (Hit.hitcount h) = Some k ->
  exists w1 h1 p,
    Hit.save h w = (w1, Ok h1)
    /\ Hit.pk h1 = Some p
    /\ hit_table w !! p = None
    /\ hit_table w1 !! p = Some (hit_row c k h)
    /\ hitcount_table w1 = hitcount_table w
    /\ count_events w1 k = count_events w k + 1
    /\ (consistent w -> ~ consistent w1).
Proof.
  intros Hp Hc Hpk.
  pose proof (Hit_save_again w h c k Hc Hpk) as Hs.
  unfold hit_key in Hs. rewrite Hp in Hs.
  eexists _, _, _. split; [exact Hs|].
  split; [reflexivity|]. split; [apply fresh_pk_None|].
  split; [simpl; apply lookup_insert_eq|]. split; [reflexivity|].
  assert (count_events
            (set_hit_table
               (<[fresh_pk (hit_table w) := hit_row c k h]> (hit_table w)) w)
            k = count_events w k + 1) as Hcount.
  { unfold count_events, events_of. simpl.
    rewrite owned_insert_fresh by apply fresh_pk_None.
    simpl. by rewrite decide_True. }
  split; [exact Hcount|].
  intros Hcons Hcons1. specialize (Hcons k). specialize (Hcons1 k).
  rewrite Hcount in Hcons1. unfold hits_at in *. simpl in Hcons1. lia.
Qed.

(** A copy of an old event, with its date, saved as a new [Hit] in
    [sample_world]. *)
Lemma preset_created_skips_increment_witness :
  Hit.pk (Hit.mk None (Some (noon - day)) "10.0.0.1" "s1" "Mozilla" None
            sample_hitcount) = None
  /\ exists w1 h1 p,
       Hit.save (Hit.mk None (Some (noon - day)) "10.0.0.1" "s1" "Mozilla"
                   None sample_hitcount) sample_world = (w1, Ok h1)
       /\ Hit.pk h1 = Some p
       /\ hit_table sample_world !! p = None
       /\ hit_table w1 !! p
          = Some (mkHitRow (noon - day) "10.0.0.1" "s1" "Mozilla" None 1)
       /\ hitcount_table w1 = hitcount_table sample_world
       /\ count_events w1 1 = count_events sample_world 1 + 1
       /\ (consistent sample_world -> ~ consistent w1).
Proof.
  split; [reflexivity|].
  apply (preset_created_skips_increment sample_world
           (Hit.mk None (Some (noon - day)) "10.0.0.1" "s1" "Mozilla" None
              sample_hitcount) (noon - day) 1); reflexivity.
Defined.

(** X4: the decrement is tied to the deletion call, not to the row.  Two
    copies of the same saved [Hit], deleted one after the other, subtract 2
    from the counter of its aggregate although one row at most leaves the
    [Hit] table. *)
Theorem deleted_twice_subtracts_twice
    (w : World) (h : Hit.t) (p k : Z) (old : HitCountRow) :
  Hit.pk h = Some p ->
  HitCount.pk (Hit.hitcount h) = Some k ->
  hitcount_table w !! k = Some old ->
  exists w1 h1 w2 h2,
    Hit_delete h w = (w1, Ok h1)
    /\ Hit_delete h w1 = (w2, Ok h2)
    /\ hits_at w1 k = Some (row_hits old - 1)
    /\ hits_at w2 k = Some (row_hits old - 2)
    /\ hit_table w1 = delete p (hit_table w)
    /\ hit_table w2 = hit_table w1.
Proof.
  intros Hp Hpk Hrow.
  pose proof (Hit_delete_spec w k old Hrow h p Hp Hpk) as Hs. simpl in Hs.
  eexists _, _, _, _. split; [exact Hs|].
  split.
  - eapply Hit_delete_spec; [| exact Hp | exact Hpk].
    simpl. apply lookup_insert_eq.
  - simpl. split; [|split; [|split]].
    + unfold hits_at. simpl. by rewrite lookup_insert_eq.
    + unfold hits_at. simpl. rewrite lookup_insert_eq. simpl. f_equal. lia.
    + reflexivity.
    + apply delete_delete_eq.
Qed.

(** [stored_hit] deleted twice in [sample_world]: the counter goes from 2
    to 0 while one of the two events is still stored. *)
Lemma deleted_twice_subtracts_twice_witness :
  Hit.pk stored_hit = Some 1
  /\ HitCount.pk (Hit.hitcount stored_hit) = Some 1
  /\ hitcount_table sample_world !! 1 = Some (mkHitCountRow 2 0 5 9)
  /\ exists w1 h1 w2 h2,
       Hit_delete stored_hit sample_world = (w1, Ok h1)
       /\ Hit_delete stored_hit w1 = (w2, Ok h2)
       /\ hits_at w1 1 = Some 1
       /\ hits_at w2 1 = Some 0
       /\ hit_table w1 = delete 1 (hit_table sample_world)
       /\ hit_table w2 = hit_table w1.
Proof.
  split; [reflexivity|]. split; [reflexivity|]. split; [reflexivity|].
  apply (deleted_twice_subtracts_twice sample_world stored_hit 1 1
           (mkHitCountRow 2 0 5 9)); reflexivity.
Defined.

(** ** Without a stored aggregate *)

Lemma expression_needs_row w hc e :
  HitCount.hits hc = Expression e ->
  (forall k, HitCount.pk hc = Some k -> hitcount_table w !! k = None) ->
  ~ saveable w hc.
Proof.
  intros Hh Hnone. unfold saveable. rewrite Hh.
  intros (k & row & Hpk & Hrow & _). by rewrite (Hnone k Hpk) in Hrow.
Qed.

(** X5: when the [HitCount] of a [Hit] is not stored (it has no key, or no
    row under its key), the save of the expression is refused and the
    exception leaves [Hit.save] and the deletion at once: the first save
    stores no [Hit] row, the deletion removes none, and no counter
    changes. *)
Theorem without_owner_nothing_is_written (w : World) (h : Hit.t) :
  (forall k, HitCount.pk (Hit.hitcount h) = Some k ->
             hitcount_table w !! k = None) ->
  (Hit.created h = None ->
     exists e, Hit.save h w = (tick 1 w, Raise e))
  /\ (forall p, Hit.pk h = Some p ->
        exists e, Hit_delete h w = (tick 1 w, Raise e))
  /\ hit_table (tick 1 w) = hit_table w
  /\ hitcount_table (tick 1 w) = hitcount_table w.
Proof.
  intros Hnone. split; [|split; [|split; reflexivity]].
  - intros Hc.
    destruct (HitCount_save_refused w
                (with_hits (Expression (Add (F "hits") 1)) (Hit.hitcount h)))
      as [e He].
    { by eapply expression_needs_row. }
    exists e. unfold Hit.save. rewrite Hc. simpl.
    erewrite bind_Raise; [reflexivity|].
    erewrite bind_Raise; [reflexivity|]. exact He.
  - intros p Hp.
    destruct (HitCount_save_refused w
                (with_hits (Expression (Sub (F "hits") 1)) (Hit.hitcount h)))
      as [e He].
    { by eapply expression_needs_row. }
    exists e. unfold Hit_delete. rewrite Hp. simpl.
    erewrite bind_Raise; [reflexivity|].
    erewrite bind_Raise; [reflexivity|].
    unfold subtract_hit_count.
    erewrite bind_Raise; [reflexivity|]. exact He.
Qed.

(** [sample_hit] and [stored_hit] in the empty world, where their
    aggregate is not stored. *)
Lemma without_owner_nothing_is_written_witness :
  (forall k, HitCount.pk (Hit.hitcount sample_hit) = Some k ->
             hitcount_table empty_world !! k = None)
  /\ Hit.created sample_hit = None
  /\ Hit.pk stored_hit = Some 1
  /\ (exists e, Hit.save sample_hit empty_world
                = (tick 1 empty_world, Raise e))
  /\ (exists e, Hit_delete stored_hit empty_world
                = (tick 1 empty_world, Raise e)).
Proof.
  assert (forall k, HitCount.pk sample_hitcount = Some k ->
                    hitcount_table empty_world !! k = None) as H0.
  { intros k _. apply lookup_empty. }
  split; [exact H0|]. split; [reflexivity|]. split; [reflexivity|].
  split.
  - exact (proj1 (without_owner_nothing_is_written empty_world sample_hit H0)
             eq_refl).
  - exact (proj1 (proj2 (without_owner_nothing_is_written empty_world
                           stored_hit H0)) 1 eq_refl).
Defined.

(** ** Windows *)










(** ** The active window *)

(** X8: [filter_active] does not check its setting.  A
    [HITCOUNT_KEEP_HIT_ACTIVE] holding a keyword that [timedelta] does not
    take, or a value that is not a number, makes every call raise a
    [TypeError]; an empty setting is accepted, unlike the empty argument set
    of [hits_in_last], and stands for a window of length zero: only events
    dated at the reading of the clock or later are returned. *)
Theorem filter_active_trusts_setting
    (w : World) (args : list lookup) (g : gmap string pyval) :
  HITCOUNT_KEEP_HIT_ACTIVE w = Some g ->
  (unparseable g ->
     HitManager.filter_active args w = (tick 1 w, Raise TypeError))
  /\ (g = ∅ ->
      exists q,
        HitManager.filter_active args w = (tick 1 w, Ok q)
        /\ forall w' p r,
             qs_rows q w' !! p = Some r <->
             hit_table w' !! p = Some r
             /\ now_of w <= row_created r
             /\ qs_matches args p r = true).
Proof.
  intros Hg. split.
  - intros Hbad. unfold HitManager.filter_active.
    erewrite bind_Ok by reflexivity.
    erewrite bind_Ok by reflexivity.
    erewrite bind_Raise; [reflexivity|].
    unfold lift, HitManager.grace, tick. simpl. rewrite Hg.
    by rewrite (timedelta_unparseable _ Hbad).
  - intros ->. exists (created__gte (now_of w - 0) :: args). split.
    + apply filter_active_spec. unfold HitManager.grace. by rewrite Hg.
    + intros w' p r. rewrite qs_rows_since. rewrite Z.sub_0_r. tauto.
Qed.

(** A setting with a misspelt keyword, and the empty setting. *)
Lemma filter_active_trusts_setting_witness :
  HITCOUNT_KEEP_HIT_ACTIVE
    (mkWorld ∅ ∅ (Some {[ "day"%string := PInt 30 ]}) sample_clock 0)
  = Some {[ "day"%string := PInt 30 ]}
  /\ unparseable {[ "day"%string := PInt 30 ]}
  /\ HITCOUNT_KEEP_HIT_ACTIVE (mkWorld ∅ ∅ (Some ∅) sample_clock 0) = Some ∅
  /\ HitManager.filter_active []
       (mkWorld ∅ ∅ (Some {[ "day"%string := PInt 30 ]}) sample_clock 0)
     = (tick 1 (mkWorld ∅ ∅ (Some {[ "day"%string := PInt 30 ]})
                  sample_clock 0),
        Raise TypeError)
  /\ exists q,
       HitManager.filter_active [] (mkWorld ∅ ∅ (Some ∅) sample_clock 0)
       = (tick 1 (mkWorld ∅ ∅ (Some ∅) sample_clock 0), Ok q)
       /\ forall w' p r,
            qs_rows q w' !! p = Some r <->
            hit_table w' !! p = Some r
            /\ noon <= row_created r
            /\ qs_matches [] p r = true.
Proof.
  assert (unparseable {[ "day"%string := PInt 30 ]}) as Hbad.
  { exists "day"%string, (PInt 30). split; [reflexivity|].
    left. unfold timedelta_keywords. intros Hin.
    repeat (apply elem_of_cons in Hin as [Hin|Hin]; [discriminate Hin|]).
    by apply elem_of_nil in Hin. }
  split; [reflexivity|]. split; [exact Hbad|]. split; [reflexivity|].
  split.
  - exact (proj1 (filter_active_trusts_setting
                    (mkWorld ∅ ∅ (Some {[ "day"%string := PInt 30 ]})
                       sample_clock 0) [] _ eq_refl) Hbad).
  - exact (proj2 (filter_active_trusts_setting
                    (mkWorld ∅ ∅ (Some ∅) sample_clock 0) [] ∅ eq_refl)
             eq_refl).
Defined.










(** ** New and fetched instances *)


(** X13: saving an instance as it was fetched.  A [Hit] fetched from the
    store and saved comes back unchanged, and neither table nor the clock
    is touched; a [HitCount] fetched and saved keeps its counter, its
    content type and its object id, and only [modified] is replaced by the
    reading of the clock. *)
Theorem fetched_instance_saved_back
    (w : World) (p : Z) (r : HitRow) (old : HitCountRow) :
  hit_table w !! p = Some r ->
  hitcount_table w !! row_hitcount_id r = Some old ->
  (exists h w1,
     Hit.get p w = (w, Ok h)
     /\ Hit.save h w = (w1, Ok h)
     /\ hitcount_table w1 = hitcount_table w
     /\ hit_table w1 = hit_table w
     /\ ticks w1 = ticks w)
  /\ (exists hc w1,
        HitCount.get (row_hitcount_id r) w = (w, Ok hc)
        /\ HitCount.save hc w = (w1, Ok (saved_at (row_hitcount_id r)
                                           (now_of w) hc))
        /\ hitcount_table w1 !! row_hitcount_id r
           = Some (mkHitCountRow (row_hits old) (now_of w)
                     (row_content_type old) (row_object_id old))
        /\ (forall k', k' <> row_hitcount_id r ->
              hitcount_table w1 !! k' = hitcount_table w !! k')
        /\ hit_table w1 = hit_table w).
Proof.
  intros Hp Hk. split.
  - eexists _, _. split; [by eapply Hit_get_Some|].
    split; [by eapply Hit_save_again|].
    split; [reflexivity|]. split; [|reflexivity].
    simpl. unfold hit_key, hit_row. simpl.
    apply insert_id. rewrite Hp. by destruct r.
  - eexists _, _. split; [by apply HitCount_get_Some|].
    split; [by eapply HitCount_save_plain|].
    split; [simpl; apply lookup_insert_eq|].
    split; [|reflexivity].
    intros k' Hne. simpl. by rewrite lookup_insert_ne.
Qed.

(** The first event of [sample_world] and its aggregate. *)
Lemma fetched_instance_saved_back_witness :
  hit_table sample_world !! 1
  = Some (mkHitRow (noon - 1 * day) "10.0.0.1" "s1" "Mozilla" None 1)
  /\ hitcount_table sample_world !! 1 = Some (mkHitCountRow 2 0 5 9)
  /\ (exists h w1,
        Hit.get 1 sample_world = (sample_world, Ok h)
        /\ Hit.save h sample_world = (w1, Ok h)
        /\ hitcount_table w1 = hitcount_table sample_world
        /\ hit_table w1 = hit_table sample_world
        /\ ticks w1 = ticks sample_world)
  /\ (exists hc w1,
        HitCount.get 1 sample_world = (sample_world, Ok hc)
        /\ HitCount.save hc sample_world = (w1, Ok (saved_at 1 noon hc))
        /\ hitcount_table w1 !! 1 = Some (mkHitCountRow 2 noon 5 9)
        /\ (forall k', k' <> 1 ->
              hitcount_table w1 !! k' = hitcount_table sample_world !! k')
        /\ hit_table w1 = hit_table sample_world).
Proof.
  split; [reflexivity|]. split; [reflexivity|].
  apply (fetched_instance_saved_back sample_world 1
           (mkHitRow (noon - 1 * day) "10.0.0.1" "s1" "Mozilla" None 1)
           (mkHitCountRow 2 0 5 9)); reflexivity.
Defined.

(** ** Labels *)

Lemma pretty_N_go_ne_None x s :
  s <> "None"%string -> pretty_N_go x s <> "None"%string.
Proof.
  revert s. induction (N.lt_wf_0 x) as [x _ IH]; intros s Hs.
  assert (x = 0 \/ 0 < x)%N as [->|Hx] by lia.
  - by rewrite pretty_N_go_0.
  - rewrite pretty_N_go_step by done. apply IH.
    { by apply N.div_lt. }
    unfold pretty_N_char. by repeat case_match.
Qed.

Lemma pretty_Z_ne_None (n : Z) : pretty n <> "None"%string.
Proof.
  unfold pretty, pretty_Z. destruct n as [|x|x]; [done| |done].
  unfold pretty, pretty_positive, pretty, pretty_N.
  case_decide; [done|]. by apply pretty_N_go_ne_None.
Qed.

Lemma unicode_of_pk_inj k1 k2 :
  unicode_of_pk k1 = unicode_of_pk k2 -> k1 = k2.
Proof.
  destruct k1 as [n1|], k2 as [n2|]; simpl; intros H; try done.
  - f_equal. by apply (inj pretty).
  - by apply pretty_Z_ne_None in H.
  - symmetry in H. by apply pretty_Z_ne_None in H.
Qed.

Example Hit__unicode__stored : Hit__unicode__ stored_hit = "Hit: 1"%string.
Proof. vm_compute. reflexivity. Qed.

Example Hit__unicode__unsaved :
  Hit__unicode__ sample_hit = "Hit: None"%string.
Proof. reflexivity. Qed.

(** X14: the label of a [Hit] tells its key and nothing else.  Two [Hit]
    instances have the same label exactly when they have the same key; so
    two saved hits with different keys are never labelled alike, and the
    label of a [Hit] without key is that of no saved [Hit]. *)
Theorem Hit_label_identifies_key (h1 h2 : Hit.t) :
  Hit__unicode__ h1 = Hit__unicode__ h2 <-> Hit.pk h1 = Hit.pk h2.
Proof.
  unfold Hit__unicode__. split.
  - intros H. simpl in H. injection H as H. by apply unicode_of_pk_inj.
  - by intros ->.
Qed.

(** ** Stale instances and purges *)

Lemma size_filter_delete
    (P : Z * HitRow -> Prop) `{!forall x, Decision (P x)}
    (t : gmap Z HitRow) p r :
  t !! p = Some r ->
  Z.of_nat (size (filter P (delete p t)))
  = Z.of_nat (size (filter P t)) - (if decide (P (p, r)) then 1 else 0).
Proof.
  intros Hp. case_decide as HP.
  - rewrite map_filter_delete.
    assert (filter P t !! p = Some r) as Hin
      by (by apply map_lookup_filter_Some).
    rewrite map_size_delete, Hin.
    assert (size (filter P t) <> 0%nat) as Hnz.
    { apply map_size_non_empty_iff. intros Hempty.
      by rewrite Hempty, lookup_empty in Hin. }
    lia.
  - rewrite map_filter_delete_not; [lia|].
    intros y Hy. rewrite Hp in Hy. by injection Hy as <-.
Qed.



(** X16: purging lowers the counter and the windows together.  Deleting a
    [Hit] fetched from the store subtracts 1 from the counter of its
    aggregate and removes its row, so that every window over that aggregate
    holds one event less when it reached back to the [created] of the
    [Hit], and as many as before otherwise. *)
Theorem purged_hit_leaves_windows
    (w : World) (p : Z) (r : HitRow) (old : HitCountRow) (since : datetime) :
  hit_table w !! p = Some r ->
  hitcount_table w !! row_hitcount_id r = Some old ->
  exists h w1 h1,
    Hit.get p w = (w, Ok h)
    /\ Hit_delete h w = (w1, Ok h1)
    /\ hits_at w1 (row_hitcount_id r) = Some (row_hits old - 1)
    /\ hit_table w1 !! p = None
    /\ Z.of_nat (size (window_events w1 (Some (row_hitcount_id r)) since))
       = Z.of_nat (size (window_events w (Some (row_hitcount_id r)) since))
         - (if decide (since <= row_created r) then 1 else 0).
Proof.
  intros Hp Hk.
  eexists _, _, _. split; [by eapply Hit_get_Some|].
  split.
  { by apply (Hit_delete_spec w (row_hitcount_id r) old Hk _ p). }
  split; [unfold hits_at; simpl; by rewrite lookup_insert_eq|].
  split; [simpl; apply lookup_delete_eq|].
  unfold window_events. simpl.
  rewrite (size_filter_delete _ _ _ _ Hp). f_equal. simpl.
  repeat case_decide; try done; tauto.
Qed.

(** The ten days old event of [sample_world], purged, and the window of
    the last seven days. *)
Lemma purged_hit_leaves_windows_witness :
  hit_table sample_world !! 2
  = Some (mkHitRow (noon - 10 * day) "10.0.0.2" "s2" "Mozilla" None 1)
  /\ hitcount_table sample_world !! 1 = Some (mkHitCountRow 2 0 5 9)
  /\ exists h w1 h1,
       Hit.get 2 sample_world = (sample_world, Ok h)
       /\ Hit_delete h sample_world = (w1, Ok h1)
       /\ hits_at w1 1 = Some (2 - 1)
       /\ hit_table w1 !! 2 = None
       /\ Z.of_nat (size (window_events w1 (Some 1) (noon - 7 * day)))
          = Z.of_nat (size (window_events sample_world (Some 1)
                              (noon - 7 * day)))
            - (if decide (noon - 7 * day <= noon - 10 * day) then 1 else 0).
Proof.
  split; [reflexivity|]. split; [reflexivity|].
  apply (purged_hit_leaves_windows sample_world 2
           (mkHitRow (noon - 10 * day) "10.0.0.2" "s2" "Mozilla" None 1)
           (mkHitCountRow 2 0 5 9) (noon - 7 * day)); reflexivity.
Defined.
